(** * RockEssentialsGroundConstructor: a shallow embedding and its properties

    The module under study (src/constructor/RockEssentialsGroundConstructor.py)
    is a Python script that drives a 3D host application through its [bpy]
    interface.  The embedding has three layers:

    - [value], [exn], [result]: the Python data the script moves around and the
      exceptions it can see;
    - [Config] and [Bpy]: the configuration wrapper and the host application the
      script calls.  Neither is defined in the module itself, so both are
      models of the interface the script uses;
    - [RockEssentialsGroundConstructor]: the script, one definition per method,
      written in a state-and-exception monad over the host state. *)

From stdpp Require Import gmap strings list fin_maps.
From Stdlib Require Import ZArith QArith.

#[local] Set Warnings "-register-all".
#[local] Open Scope string_scope.
#[local] Open Scope list_scope.

(** ** Python values *)

(** The values a YAML/JSON configuration can hold. *)
Inductive value : Type :=
  | VNone
  | VBool (b : bool)
  | VInt (z : Z)
  | VFloat (q : Q)
  | VStr (s : string)
  | VList (l : list value)
  | VDict (d : gmap string value).

(** Python truthiness, as tested by [if tile:]. *)
Definition truthy (v : value) : bool :=
  match v with
  | VNone => false
  | VBool b => b
  | VInt z => negb (z =? 0)%Z
  | VFloat q => negb (Qnum q =? 0)%Z
  | VStr s => negb (String.eqb s "")
  | VList l => negb (bool_decide (l = []))
  | VDict d => negb (bool_decide (d = ∅))
  end.

(** The exceptions that can reach the script: [NotFoundError] is raised by the
    configuration wrapper, the others by Python or the host. *)
Inductive exn : Type :=
  | NotFoundError (name : string)
  | TypeError (what : string)
  | KeyError (key : string)
  | IndexError
  | AttributeError (attr : string)
  | RuntimeError (op : string).

Inductive result (A : Type) : Type :=
  | Ok (a : A)
  | Raise (e : exn).
Arguments Ok {A} a.
Arguments Raise {A} e.

#[export] Instance result_ret : MRet result := fun A a => Ok a.
#[export] Instance result_bind : MBind result := fun A B f r =>
  match r with
  | Ok a => f a
  | Raise e => Raise e
  end.

(** ** Mutable state and exceptions

    A computation over a mutable state [S] returns a value or raises, and in
    both cases leaves a state: an exception does not undo what was done before
    it was raised. *)
Definition SE (S A : Type) : Type := S -> result A * S.

#[export] Instance SE_ret {S : Type} : MRet (SE S) := fun A a s => (Ok a, s).
#[export] Instance SE_bind {S : Type} : MBind (SE S) := fun A B k m s =>
  match m s with
  | (Ok a, s') => k a s'
  | (Raise e, s') => (Raise e, s')
  end.

Definition raise {S A : Type} (e : exn) : SE S A := fun s => (Raise e, s).
Definition gets {S A : Type} (f : S -> A) : SE S A := fun s => (Ok (f s), s).
Definition modify {S : Type} (f : S -> S) : SE S unit := fun s => (Ok tt, f s).
Definition lift {S A : Type} (r : result A) : SE S A := fun s => (r, s).
Definition from_option {S A : Type} (e : exn) (o : option A) : SE S A :=
  match o with
  | Some a => mret a
  | None => raise e
  end.

(** [l[0]] *)
Definition first {S A : Type} (l : list A) : SE S A := from_option IndexError (head l).

(** [for x in l: body(x)] *)
Fixpoint for_each {S A : Type} (l : list A) (body : A -> SE S unit) : SE S unit :=
  match l with
  | [] => mret tt
  | x :: l' => body x;; for_each l' body
  end.

(** ** os.path.join (POSIX) *)

Module os_path.

Definition sep : string := "/".

Definition startswith (p s : string) : bool := String.prefix p s.

Definition endswith (p s : string) : bool :=
  String.prefix (String.rev p) (String.rev s).

(** [posixpath.join]: a component that starts with the separator discards
    everything before it; otherwise components are glued with one separator. *)
Definition join (a : string) (p : list string) : string :=
  foldl (fun path b =>
           if startswith sep b then b
           else if (String.eqb path "" || endswith sep path)%bool then path +:+ b
           else path +:+ sep +:+ b) a p.

End os_path.

(** ** Config *)

Module Config.

(** Modelled from the spec: the [Config] class of src/utility/Config.py, which
    is not among the sources; the spec calls it a simple key-lookup-with-default
    wrapper.  A [Config] wraps one configuration block; a getter returns the
    value stored under the name, the fallback when the name is absent, and
    raises [NotFoundError] when there is neither.  A stored value that has not
    the requested shape, and a block that is not a mapping, raise [TypeError]. *)
Record t : Type := Config { data : value }.

Definition get_raw (cfg : t) (name : string) : result (option value) :=
  match data cfg with
  | VDict d => Ok (d !! name)
  | _ => Raise (TypeError "configuration block is not a mapping")
  end.

Definition get_with {A : Type} (conv : value -> result A)
    (cfg : t) (name : string) (fallback : option A) : result A :=
  o ← get_raw cfg name;
  match o with
  | Some v => conv v
  | None =>
      match fallback with
      | Some x => Ok x
      | None => Raise (NotFoundError name)
      end
  end.

Definition as_string (v : value) : result string :=
  match v with
  | VStr s => Ok s
  | _ => Raise (TypeError "str")
  end.

Definition as_int (v : value) : result Z :=
  match v with
  | VInt z => Ok z
  | _ => Raise (TypeError "int")
  end.

Definition as_float (v : value) : result Q :=
  match v with
  | VInt z => Ok (inject_Z z)
  | VFloat q => Ok q
  | _ => Raise (TypeError "float")
  end.

Definition as_list (v : value) : result (list value) :=
  match v with
  | VList l => Ok l
  | _ => Raise (TypeError "list")
  end.

Definition as_vector3d (v : value) : result (list Q) :=
  l ← as_list v;
  match l with
  | [x; y; z] =>
      x' ← as_float x; y' ← as_float y; z' ← as_float z; Ok [x'; y'; z']
  | _ => Raise (TypeError "vector of dimension 3")
  end.

Definition get_string := get_with as_string.
Definition get_int := get_with as_int.
Definition get_float := get_with as_float.
Definition get_list := get_with as_list.
Definition get_vector3d := get_with as_vector3d.

End Config.

(** ** The host application *)

Module Bpy.

(** *** Data blocks *)

(** A shader node group, as stored in an asset file or in [bpy.data.node_groups]:
    its name and the names of the sockets of its interface. *)
Record node_group : Type := NodeGroup {
  ng_name : string;
  ng_inputs : list string;
  ng_outputs : list string
}.

(** A node of a material's node tree.  [n_idname] is the type identifier
    ([bl_idname]); [n_node_tree] is the node group a group node refers to;
    [n_defaults] holds the [default_value] assigned to input sockets. *)
Record node : Type := Node {
  n_name : string;
  n_idname : string;
  n_label : string;
  n_node_tree : option string;
  n_inputs : list string;
  n_outputs : list string;
  n_defaults : gmap string value
}.

Record link : Type := Link {
  from_node : string;
  from_socket : string;
  to_node : string;
  to_socket : string
}.

Record tree : Type := Tree {
  nodes : list node;
  links : list link
}.

Record material : Type := Material {
  mat_name : string;
  use_nodes : bool;
  node_tree : option tree
}.

Record texture : Type := Texture {
  tex_name : string;
  tex_type : string
}.

(** The settings of a modifier; only the two types the script adds carry
    settings here. *)
Inductive modifier_data : Type :=
  | Subsurf (render_levels : Z)
  | Displace (strength : Q) (md_texture : option nat) (texture_coords : string)
  | OtherModifier (type : string).

Record modifier : Type := Modifier {
  md_name : string;
  md_data : modifier_data
}.

(** Mesh data: the material slots (indices into [bpy.data.materials]), the
    number of plane primitives it holds, the subdivisions made in edit mode and
    the scales baked into the vertices, both in the order they were applied. *)
Record mesh : Type := Mesh {
  me_materials : list nat;
  me_planes : nat;
  me_cuts : list Z;
  me_applied_scales : list (list Q)
}.

Record object : Type := Object {
  ob_name : string;
  ob_scale : list Q;
  ob_data : mesh;
  ob_modifiers : list modifier;
  ob_props : gmap string value
}.

Inductive object_mode : Type := OBJECT | EDIT.

(** An operator invocation [bpy.ops.<op>(<kwargs>)]. *)
Record call : Type := Call {
  op : string;
  kwargs : list (string * value)
}.

(** The host state.  [disk] is what the asset files hold: for a library
    directory such as [file.blend/NodeTree], the node groups stored there; it
    lies outside the scene and no operation changes it.  [active] is
    [bpy.context.object], an index into [objects].  [journal] lists the
    operator invocations made so far, oldest first. *)
Record Host : Type := mkHost {
  disk : gmap string (list node_group);
  objects : list object;
  materials : list material;
  node_groups : list node_group;
  textures : list texture;
  active : option nat;
  mode : object_mode;
  journal : list call
}.

Definition set_objects (f : list object -> list object) (h : Host) : Host :=
  mkHost (disk h) (f (objects h)) (materials h) (node_groups h) (textures h)
         (active h) (mode h) (journal h).
Definition set_materials (f : list material -> list material) (h : Host) : Host :=
  mkHost (disk h) (objects h) (f (materials h)) (node_groups h) (textures h)
         (active h) (mode h) (journal h).
Definition set_node_groups (f : list node_group -> list node_group) (h : Host) : Host :=
  mkHost (disk h) (objects h) (materials h) (f (node_groups h)) (textures h)
         (active h) (mode h) (journal h).
Definition set_textures (f : list texture -> list texture) (h : Host) : Host :=
  mkHost (disk h) (objects h) (materials h) (node_groups h) (f (textures h))
         (active h) (mode h) (journal h).
Definition set_active (a : option nat) (h : Host) : Host :=
  mkHost (disk h) (objects h) (materials h) (node_groups h) (textures h)
         a (mode h) (journal h).
Definition set_mode (m : object_mode) (h : Host) : Host :=
  mkHost (disk h) (objects h) (materials h) (node_groups h) (textures h)
         (active h) m (journal h).
Definition set_journal (f : list call -> list call) (h : Host) : Host :=
  mkHost (disk h) (objects h) (materials h) (node_groups h) (textures h)
         (active h) (mode h) (f (journal h)).

(** Host calls are computations over the host state. *)
Definition M : Type -> Type := SE Host.

Definition log (c : call) : M unit := modify (set_journal (fun j => j ++ [c])).

(** *** Names

    The host keeps the names of a collection distinct: a requested name that is
    taken gets the first free numeric suffix [.001], [.002], ...  (The host's
    limit on the length of a name is not modelled.) *)
Definition digit (n : nat) : string :=
  String (Ascii.ascii_of_nat (48 + n mod 10)) "".

Definition suffix (k : nat) : string :=
  "." +:+ digit (k / 100) +:+ digit (k / 10) +:+ digit k.

Fixpoint first_free (base : string) (used : list string) (k fuel : nat) : string :=
  match fuel with
  | O => base +:+ suffix k
  | S fuel' =>
      if decide (base +:+ suffix k ∈ used) then first_free base used (S k) fuel'
      else base +:+ suffix k
  end.

Definition unique_name (base : string) (used : list string) : string :=
  if decide (base ∈ used) then first_free base used 1 (length used) else base.

(** Index of the first element called [name]: [collection[name]]. *)
Definition find_named {A : Type} (key : A -> string) (name : string) (l : list A)
    : option nat :=
  fst <$> list_find (fun x => key x = name) l.

(** *** bpy.ops *)

Definition context_object : M nat :=
  a ← gets active;
  from_option (AttributeError "'NoneType' object has no such attribute") a.

(** [bpy.ops.wm.append]: the library is [directory], the item [filename]; the
    [filepath] keyword takes no part.  A directory that is no library makes the
    operator fail; an item the library lacks is passed over. *)
Definition ops_wm_append (filepath filename directory : string) : M unit :=
  log (Call "wm.append" [("filepath", VStr filepath); ("filename", VStr filename);
                         ("directory", VStr directory)]);;
  d ← gets disk;
  match d !! directory with
  | None => raise (RuntimeError "wm.append")
  | Some groups =>
      match list_find (fun g => ng_name g = filename) groups with
      | None => mret tt
      | Some (_, g) =>
          modify (set_node_groups (fun gs =>
            gs ++ [NodeGroup (unique_name (ng_name g) (ng_name <$> gs))
                             (ng_inputs g) (ng_outputs g)]))
      end
  end.

Definition new_plane (name : string) : object :=
  Object name [1%Q; 1%Q; 1%Q] (Mesh [] 1 [] []) [] ∅.

Definition add_plane_to_mesh (o : object) : object :=
  Object (ob_name o) (ob_scale o)
         (Mesh (me_materials (ob_data o)) (S (me_planes (ob_data o)))
               (me_cuts (ob_data o)) (me_applied_scales (ob_data o)))
         (ob_modifiers o) (ob_props o).

(** [bpy.ops.mesh.primitive_plane_add]: in object mode a new object called
    "Plane" is created and made the active one; in edit mode the plane is
    added to the mesh being edited. *)
Definition ops_mesh_primitive_plane_add : M unit :=
  log (Call "mesh.primitive_plane_add" []);;
  m ← gets mode;
  match m with
  | OBJECT =>
      modify (fun h =>
        set_active (Some (length (objects h)))
          (set_objects (fun os => os ++ [new_plane (unique_name "Plane" (ob_name <$> os))]) h))
  | EDIT =>
      a ← gets active;
      match a with
      | Some i => modify (set_objects (alter add_plane_to_mesh i))
      | None => raise (RuntimeError "mesh.primitive_plane_add")
      end
  end.

Definition ops_object_mode_set (new_mode : string) : M unit :=
  log (Call "object.mode_set" [("mode", VStr new_mode)]);;
  a ← gets active;
  match a with
  | None => raise (RuntimeError "object.mode_set")
  | Some _ =>
      if String.eqb new_mode "EDIT" then modify (set_mode EDIT)
      else if String.eqb new_mode "OBJECT" then modify (set_mode OBJECT)
      else raise (TypeError "mode")
  end.

Definition ops_object_editmode_toggle : M unit :=
  log (Call "object.editmode_toggle" []);;
  a ← gets active;
  match a with
  | None => raise (RuntimeError "object.editmode_toggle")
  | Some _ =>
      modify (fun h => set_mode (match mode h with OBJECT => EDIT | EDIT => OBJECT end) h)
  end.

Definition subdivide_mesh (cuts : Z) (o : object) : object :=
  Object (ob_name o) (ob_scale o)
         (Mesh (me_materials (ob_data o)) (me_planes (ob_data o))
               (me_cuts (ob_data o) ++ [cuts]) (me_applied_scales (ob_data o)))
         (ob_modifiers o) (ob_props o).

(** [bpy.ops.mesh.subdivide]: an edit-mode operator on the mesh being edited. *)
Definition ops_mesh_subdivide (number_cuts : Z) : M unit :=
  log (Call "mesh.subdivide" [("number_cuts", VInt number_cuts)]);;
  m ← gets mode;
  a ← gets active;
  match m with
  | EDIT =>
      match a with
      | Some i => modify (set_objects (alter (subdivide_mesh number_cuts) i))
      | None => raise (RuntimeError "mesh.subdivide")
      end
  | OBJECT => raise (RuntimeError "mesh.subdivide")
  end.

Definition new_modifier (type : string) (used : list string) : modifier :=
  if String.eqb type "SUBSURF" then Modifier (unique_name "Subdivision" used) (Subsurf 2%Z)
  else if String.eqb type "DISPLACE" then
    Modifier (unique_name "Displace" used) (Displace 1%Q None "LOCAL")
  else Modifier (unique_name type used) (OtherModifier type).

Definition add_modifier (type : string) (o : object) : object :=
  Object (ob_name o) (ob_scale o) (ob_data o)
         (ob_modifiers o ++ [new_modifier type (md_name <$> ob_modifiers o)])
         (ob_props o).

(** [bpy.ops.object.modifier_add]: appends a modifier to the active object. *)
Definition ops_object_modifier_add (type : string) : M unit :=
  log (Call "object.modifier_add" [("type", VStr type)]);;
  a ← gets active;
  match a with
  | Some i => modify (set_objects (alter (add_modifier type) i))
  | None => raise (RuntimeError "object.modifier_add")
  end.

Definition apply_scale (o : object) : object :=
  Object (ob_name o) [1%Q; 1%Q; 1%Q]
         (Mesh (me_materials (ob_data o)) (me_planes (ob_data o))
               (me_cuts (ob_data o)) (me_applied_scales (ob_data o) ++ [ob_scale o]))
         (ob_modifiers o) (ob_props o).

(** [bpy.ops.object.transform_apply]: an object-mode operator; with [scale] it
    bakes the scale of the active object into its mesh and resets the scale. *)
Definition ops_object_transform_apply (location rotation scale : bool) : M unit :=
  log (Call "object.transform_apply"
            [("location", VBool location); ("rotation", VBool rotation);
             ("scale", VBool scale)]);;
  m ← gets mode;
  a ← gets active;
  match m with
  | OBJECT =>
      match a with
      | Some i => if scale then modify (set_objects (alter apply_scale i)) else mret tt
      | None => raise (RuntimeError "object.transform_apply")
      end
  | EDIT => raise (RuntimeError "object.transform_apply")
  end.

(** *** bpy.data.objects *)

(** [obj.name = name]: the name actually given is unique among the others. *)
Definition rename_object (name : string) (i : nat) (os : list object) : list object :=
  alter (fun o => Object (unique_name name (ob_name <$> delete i os))
                         (ob_scale o) (ob_data o) (ob_modifiers o) (ob_props o)) i os.

Definition set_object_name (i : nat) (name : string) : M unit :=
  modify (set_objects (rename_object name i)).

(** [bpy.data.objects[name]] *)
Definition data_objects_getitem (name : string) : M nat :=
  os ← gets objects;
  from_option (KeyError name) (find_named ob_name name os).

Definition set_object_scale (i : nat) (scale : list Q) : M unit :=
  modify (set_objects (alter (fun o =>
    Object (ob_name o) scale (ob_data o) (ob_modifiers o) (ob_props o)) i)).

(** [obj.data.materials.append(mat)] *)
Definition object_materials_append (i mat : nat) : M unit :=
  modify (set_objects (alter (fun o =>
    Object (ob_name o) (ob_scale o)
           (Mesh (me_materials (ob_data o) ++ [mat]) (me_planes (ob_data o))
                 (me_cuts (ob_data o)) (me_applied_scales (ob_data o)))
           (ob_modifiers o) (ob_props o)) i)).

(** [obj[key] = v]: a custom property. *)
Definition set_object_prop (i : nat) (key : string) (v : value) : M unit :=
  modify (set_objects (alter (fun o =>
    Object (ob_name o) (ob_scale o) (ob_data o) (ob_modifiers o)
           (<[key := v]> (ob_props o))) i)).

(** [obj.modifiers[name].<attribute> = ...]: [upd] returns [None] when the
    modifier's type has not the attribute. *)
Definition set_modifier (i : nat) (name attr : string)
    (upd : modifier_data -> option modifier_data) : M unit :=
  os ← gets objects;
  o ← from_option (KeyError "object") (os !! i);
  j ← from_option (KeyError name) (find_named md_name name (ob_modifiers o));
  m ← from_option (KeyError name) (ob_modifiers o !! j);
  d ← from_option (AttributeError attr) (upd (md_data m));
  modify (set_objects (alter (fun o =>
    Object (ob_name o) (ob_scale o) (ob_data o)
           (<[j := Modifier (md_name m) d]> (ob_modifiers o)) (ob_props o)) i)).

Definition set_render_levels (v : Z) (d : modifier_data) : option modifier_data :=
  match d with
  | Subsurf _ => Some (Subsurf v)
  | _ => None
  end.

Definition set_strength (v : Q) (d : modifier_data) : option modifier_data :=
  match d with
  | Displace _ t c => Some (Displace v t c)
  | _ => None
  end.

Definition set_texture (v : nat) (d : modifier_data) : option modifier_data :=
  match d with
  | Displace s _ c => Some (Displace s (Some v) c)
  | _ => None
  end.

Definition set_texture_coords (v : string) (d : modifier_data) : option modifier_data :=
  match d with
  | Displace s t _ => Some (Displace s t v)
  | _ => None
  end.

(** *** bpy.data.textures and bpy.data.node_groups *)

(** [bpy.data.textures.new(name, type)] *)
Definition data_textures_new (name type : string) : M nat :=
  ts ← gets textures;
  modify (set_textures (fun ts => ts ++ [Texture (unique_name name (tex_name <$> ts)) type]));;
  mret (length ts).

(** [bpy.data.textures[name]] *)
Definition data_textures_getitem (name : string) : M nat :=
  ts ← gets textures;
  from_option (KeyError name) (find_named tex_name name ts).

(** [bpy.data.node_groups[name]] *)
Definition data_node_groups_getitem (name : string) : M node_group :=
  gs ← gets node_groups;
  i ← from_option (KeyError name) (find_named ng_name name gs);
  from_option (KeyError name) (gs !! i).

(** *** Node trees

    The [nodes] and [links] of a material are the two collections of one node
    tree; what the script does with them is a computation over that tree. *)
Definition T : Type -> Type := SE tree.

(** The node types the script meets: default name, input and output sockets. *)
Definition node_type (idname : string) : option (string * list string * list string) :=
  if String.eqb idname "ShaderNodeBsdfPrincipled" then
    Some ("Principled BSDF", ["Base Color"; "Metallic"; "Specular"; "Roughness"; "Normal"],
          ["BSDF"])
  else if String.eqb idname "ShaderNodeOutputMaterial" then
    Some ("Material Output", ["Surface"; "Volume"; "Displacement"], [])
  else if String.eqb idname "ShaderNodeGroup" then
    Some ("Group", [], [])
  else if String.eqb idname "ShaderNodeTexImage" then
    Some ("Image Texture", ["Vector"], ["Color"; "Alpha"])
  else if String.eqb idname "ShaderNodeNormalMap" then
    Some ("Normal Map", ["Strength"; "Color"], ["Normal"])
  else None.

Definition new_node (idname : string) (used : list string) : option node :=
  match node_type idname with
  | Some (name, ins, outs) =>
      Some (Node (unique_name name used) idname "" None ins outs ∅)
  | None => None
  end.

Definition update_node (name : string) (f : node -> node) (t : tree) : tree :=
  match find_named n_name name (nodes t) with
  | Some i => Tree (alter f i (nodes t)) (links t)
  | None => t
  end.

Definition find_node (name : string) (t : tree) : option node :=
  snd <$> list_find (fun n => n_name n = name) (nodes t).

Definition has_socket (socket : string) (sockets : list string) : bool :=
  bool_decide (socket ∈ sockets).

(** [nodes.new(idname)]: the new node comes last; its name is returned. *)
Definition nodes_new (idname : string) : T string :=
  used ← gets (fun t => n_name <$> nodes t);
  n ← from_option (RuntimeError "nodes.new") (new_node idname used);
  modify (fun t => Tree (nodes t ++ [n]) (links t));;
  mret (n_name n).

(** [nodes.remove(node)]: the node goes, and so do the links that touch it. *)
Definition nodes_remove (name : string) : T unit :=
  modify (fun t =>
    Tree (filter (fun n => n_name n ≠ name) (nodes t))
         (filter (fun l => from_node l ≠ name ∧ to_node l ≠ name) (links t))).

(** [nodes[-k].name] for k = 1, 2, ... *)
Definition nodes_from_end (k : nat) : T string :=
  ns ← gets nodes;
  n ← from_option IndexError (rev ns !! (k - 1)%nat);
  mret (n_name n).

(** [nodes.get(name)]: [None] when there is no node of that name. *)
Definition nodes_get (name : string) : T (option string) :=
  ns ← gets nodes;
  mret ((fun _ => name) <$> find_named n_name name ns).

(** [node.outputs[socket]] and [node.inputs[socket]], as (node, socket). *)
Definition node_outputs (name socket : string) : T (string * string) :=
  o ← gets (find_node name);
  n ← from_option (KeyError name) o;
  if has_socket socket (n_outputs n) then mret (name, socket) else raise (KeyError socket).

Definition node_inputs (name socket : string) : T (string * string) :=
  o ← gets (find_node name);
  n ← from_option (KeyError name) o;
  if has_socket socket (n_inputs n) then mret (name, socket) else raise (KeyError socket).

(** [node.label = label] *)
Definition set_node_label (name label : string) : T unit :=
  modify (update_node name (fun n =>
    Node (n_name n) (n_idname n) label (n_node_tree n) (n_inputs n) (n_outputs n)
         (n_defaults n))).

(** [node.node_tree = group]: the node takes the sockets of the group. *)
Definition set_node_tree (name : string) (g : node_group) : T unit :=
  modify (update_node name (fun n =>
    Node (n_name n) (n_idname n) (n_label n) (Some (ng_name g)) (ng_inputs g)
         (ng_outputs g) (n_defaults n))).

(** [socket.default_value = v] for an input socket. *)
Definition set_default_value (socket : string * string) (v : value) : T unit :=
  modify (update_node socket.1 (fun n =>
    Node (n_name n) (n_idname n) (n_label n) (n_node_tree n) (n_inputs n) (n_outputs n)
         (<[socket.2 := v]> (n_defaults n)))).

(** [links.new(a, b)]: an input socket takes one link, so a link that already
    ends in [b] is replaced. *)
Definition links_new (a b : string * string) : T unit :=
  modify (fun t =>
    Tree (nodes t)
         (filter (fun l => ¬ (to_node l = b.1 ∧ to_socket l = b.2)) (links t)
          ++ [Link a.1 a.2 b.1 b.2])).

(** *** bpy.data.materials *)

(** The tree a material gets when nodes are switched on: a Principled BSDF
    wired to the material output. *)
Definition default_tree : tree :=
  Tree [Node "Principled BSDF" "ShaderNodeBsdfPrincipled" "" None
             ["Base Color"; "Metallic"; "Specular"; "Roughness"; "Normal"] ["BSDF"] ∅;
        Node "Material Output" "ShaderNodeOutputMaterial" "" None
             ["Surface"; "Volume"; "Displacement"] [] ∅]
       [Link "Principled BSDF" "BSDF" "Material Output" "Surface"].

(** [bpy.data.materials.new(name)] *)
Definition data_materials_new (name : string) : M nat :=
  ms ← gets materials;
  modify (set_materials (fun ms =>
    ms ++ [Material (unique_name name (mat_name <$> ms)) false None]));;
  mret (length ms).

(** [mat.use_nodes = b] *)
Definition set_use_nodes (mat : nat) (b : bool) : M unit :=
  modify (set_materials (alter (fun m =>
    Material (mat_name m) b
             (match node_tree m with
              | None => if b then Some default_tree else None
              | Some t => Some t
              end)) mat)).

(** [mat.node_tree.nodes] and [mat.node_tree.links]: a handle on the tree of
    the material, which must have one. *)
Definition material_node_tree (mat : nat) : M nat :=
  ms ← gets materials;
  m ← from_option (KeyError "material") (ms !! mat);
  from_option (AttributeError "'NoneType' object has no attribute 'nodes'") (node_tree m);;
  mret mat.

(** Runs a computation on the tree behind a handle; what it did to the tree
    before raising stays done. *)
Definition with_tree {A : Type} (handle : nat) (p : T A) : M A :=
  ms ← gets materials;
  m ← from_option (KeyError "material") (ms !! handle);
  t ← from_option (AttributeError "'NoneType' object has no attribute 'nodes'") (node_tree m);
  modify (set_materials (alter (fun m =>
    Material (mat_name m) (use_nodes m) (Some (p t).2)) handle));;
  lift (p t).1.

End Bpy.

(** ** Utility *)

Module Utility.
Import Bpy.

(** Python's [sub in s] on strings. *)
Definition contains (sub s : string) : bool :=
  match String.index 0 sub s with
  | Some _ => true
  | None => false
  end.

(** Modelled from the spec: [Utility.get_nodes_with_type] of
    src/utility/Utility.py, which is not among the sources.  The spec does not
    describe it; the script relies on it to return, in the order of the node
    collection, the nodes whose type identifier contains [node_type]. *)
Definition get_nodes_with_type (node_type : string) : T (list string) :=
  ns ← gets nodes;
  mret (n_name <$> filter (fun n => contains node_type (n_idname n) = true) ns).

End Utility.

(** ** The script *)

Module RockEssentialsGroundConstructor.
Import Bpy.

(** [_load_shader(self, ground_config)] *)
Definition _load_shader (ground_config : Config.t) : M unit :=
  shader_path ← lift (Config.get_string ground_config "shader_path" None);
  ops_wm_append (os_path.join shader_path ["/NodeTree"; ""; "PBR Rock Shader"])
                "PBR Rock Shader"
                (os_path.join (shader_path +:+ "/NodeTree") []).

(** [_create_node(self, nodes, links, map_type, in_point)]: [nodes] and [links]
    are handles on the same node tree. *)
Definition _create_node (nodes links : nat) (map_type in_point : string) : M unit :=
  with_tree nodes (
    nodes_new "ShaderNodeTexImage";;
    last ← nodes_from_end 1;
    got ← nodes_get last;
    got ← from_option (AttributeError "'NoneType' object has no attribute 'outputs'") got;
    a ← node_outputs got "Color";
    last ← nodes_from_end 1;
    set_node_label last map_type;;
    a ← (if String.eqb map_type "normal" then
           group_norm_map ← nodes_new "ShaderNodeNormalMap";
           pre_last ← nodes_from_end 2;
           got ← nodes_get pre_last;
           got ← from_option (AttributeError "'NoneType' object has no attribute 'outputs'") got;
           a_norm ← node_outputs got "Color";
           b_norm ← node_inputs group_norm_map "Color";
           links_new a_norm b_norm;;
           last ← nodes_from_end 1;
           got ← nodes_get last;
           got ← from_option (AttributeError "'NoneType' object has no attribute 'outputs'") got;
           node_outputs got "Normal"
         else mret a);
    got ← nodes_get "Group";
    got ← from_option (AttributeError "'NoneType' object has no attribute 'inputs'") got;
    b ← node_inputs got in_point;
    links_new a b).

(** [_construct_ground_plane(self, ground_config)] *)
Definition _construct_ground_plane (ground_config : Config.t) : M unit :=
  plane_scale ← lift (Config.get_vector3d ground_config "plane_scale" (Some [1%Q; 1%Q; 1%Q]));
  subdivision_cuts ← lift (Config.get_int ground_config "subdivision_cuts" (Some 50%Z));
  subdivision_render_levels ←
    lift (Config.get_int ground_config "subdivision_render_levels" (Some 3%Z));
  displacement_strength ←
    lift (Config.get_float ground_config "displacement_strength" (Some 1%Q));
  tile_name ← lift (Config.get_string ground_config "tile_name" (Some "RE_ground_plane"));
  ao ← lift (Config.get_list ground_config "AO" (Some [VInt 1; VInt 1; VInt 1; VInt 1]));

  ops_mesh_primitive_plane_add;;
  (o ← context_object; set_object_name o tile_name);;
  plane_obj ← data_objects_getitem tile_name;
  set_object_scale plane_obj plane_scale;;

  mat_obj ← data_materials_new "re_ground_mat";
  set_use_nodes mat_obj true;;

  object_materials_append plane_obj mat_obj;;
  nodes ← material_node_tree mat_obj;
  links ← material_node_tree mat_obj;

  with_tree nodes (found ← Utility.get_nodes_with_type "BsdfPrincipled";
                   bsdf ← first found;
                   nodes_remove bsdf);;

  group_pbr ← with_tree nodes (nodes_new "ShaderNodeGroup");
  (g ← data_node_groups_getitem "PBR Rock Shader";
   with_tree nodes (set_node_tree group_pbr g));;
  with_tree nodes (s ← node_inputs group_pbr "AO"; set_default_value s (VList ao));;
  output_node ← with_tree nodes (found ← Utility.get_nodes_with_type "OutputMaterial";
                                 first found);
  with_tree links (a ← node_outputs group_pbr "Shader";
                   b ← node_inputs output_node "Surface";
                   links_new a b);;

  _create_node nodes links "color" "Color";;
  _create_node nodes links "roughness" "Roughness";;
  _create_node nodes links "reflection" "Reflection";;
  _create_node nodes links "normal" "Normal";;

  ops_object_mode_set "EDIT";;
  ops_mesh_subdivide subdivision_cuts;;
  ops_object_modifier_add "SUBSURF";;
  ops_object_modifier_add "DISPLACE";;

  let texture_name := tile_name +:+ "_texture" in
  texture ← data_textures_new texture_name "IMAGE";

  (t ← data_textures_getitem texture_name;
   set_modifier plane_obj "Displace" "texture" (set_texture t));;
  set_modifier plane_obj "Displace" "texture_coords" (set_texture_coords "UV");;

  ops_object_editmode_toggle;;
  ops_object_transform_apply false false true;;
  (o ← context_object;
   set_modifier o "Subdivision" "render_levels" (set_render_levels subdivision_render_levels));;
  (o ← context_object;
   set_modifier o "Displace" "strength" (set_strength displacement_strength));;
  set_object_prop plane_obj "physics" (VBool false).

(** [run(self)]; [config] is [self.config]. *)
Definition run (config : Config.t) : M unit :=
  tiles ← lift (Config.get_list config "tiles" (Some []));
  for_each tiles (fun tile =>
    if truthy tile then
      let ground_config := Config.Config tile in
      _load_shader ground_config;;
      _construct_ground_plane ground_config
    else mret tt).

End RockEssentialsGroundConstructor.

Import Bpy RockEssentialsGroundConstructor.

(** ** Test fixtures: an asset file, an empty scene, some tiles *)

Definition rock_shader : node_group :=
  NodeGroup "PBR Rock Shader" ["Color"; "Roughness"; "Reflection"; "Normal"; "AO"]
            ["Shader"].

Definition empty_scene : Host :=
  mkHost {[ "/assets/rocks.blend/NodeTree" := [rock_shader] ]} [] [] [] [] None OBJECT [].

(** A tile that names the asset file and leaves every optional key out. *)
Definition default_tile : value :=
  VDict {[ "shader_path" := VStr "/assets/rocks.blend" ]}.


(** A tile with one key, which is none of the keys of a tile. *)
Definition comment_tile : value := VDict {[ "comment" := VStr "rocks" ]}.

Definition config_of_tiles (tiles : list value) : Config.t :=
  Config.Config (VDict {[ "tiles" := VList tiles ]}).

(** The scene after [run] on one default tile, and after the shader import of
    a second default tile. *)
Definition one_tile_scene : Host := (run (config_of_tiles [default_tile]) empty_scene).2.

Definition second_import_scene : Host :=
  (_load_shader (Config.Config default_tile) one_tile_scene).2.

(** ** What the claims speak of *)

(** The operator calls of the two phases, by name and in order. *)
Definition shader_import_calls : list string := ["wm.append"].

Definition plane_construction_calls : list string :=
  ["mesh.primitive_plane_add"; "object.mode_set"; "mesh.subdivide";
   "object.modifier_add"; "object.modifier_add"; "object.editmode_toggle";
   "object.transform_apply"].

Definition tile_calls : list string := shader_import_calls ++ plane_construction_calls.

Definition op_names (h : Host) : list string := op <$> journal h.

(** The operator calls of the plane construction, with their arguments. *)
Definition construction_calls (cuts : Z) : list call :=
  [Call "mesh.primitive_plane_add" [];
   Call "object.mode_set" [("mode", VStr "EDIT")];
   Call "mesh.subdivide" [("number_cuts", VInt cuts)];
   Call "object.modifier_add" [("type", VStr "SUBSURF")];
   Call "object.modifier_add" [("type", VStr "DISPLACE")];
   Call "object.editmode_toggle" [];
   Call "object.transform_apply"
        [("location", VBool false); ("rotation", VBool false); ("scale", VBool true)]].

(** The append call of the shader import for a given [shader_path]. *)
Definition append_call (shader_path : string) : call :=
  Call "wm.append" [("filepath", VStr "/NodeTree/PBR Rock Shader");
                    ("filename", VStr "PBR Rock Shader");
                    ("directory", VStr (shader_path +:+ "/NodeTree"))].

Definition image_texture (name label : string) : node :=
  Node name "ShaderNodeTexImage" label None ["Vector"] ["Color"; "Alpha"] ∅.

(** The material graph the claims describe, for the node group [g] and the AO
    value [ao]: output, group, four image textures, normal map, six links. *)
Definition rock_material_graph (g : node_group) (ao : list value) : tree :=
  Tree [Node "Material Output" "ShaderNodeOutputMaterial" "" None
             ["Surface"; "Volume"; "Displacement"] [] ∅;
        Node "Group" "ShaderNodeGroup" "" (Some (ng_name g)) (ng_inputs g) (ng_outputs g)
             {[ "AO" := VList ao ]};
        image_texture "Image Texture" "color";
        image_texture "Image Texture.001" "roughness";
        image_texture "Image Texture.002" "reflection";
        image_texture "Image Texture.003" "normal";
        Node "Normal Map" "ShaderNodeNormalMap" "" None ["Strength"; "Color"] ["Normal"] ∅]
       [Link "Group" "Shader" "Material Output" "Surface";
        Link "Image Texture" "Color" "Group" "Color";
        Link "Image Texture.001" "Color" "Group" "Roughness";
        Link "Image Texture.002" "Color" "Group" "Reflection";
        Link "Image Texture.003" "Color" "Normal Map" "Color";
        Link "Normal Map" "Normal" "Group" "Normal"].

(** The plane the claims describe once it is finished. *)
Definition ground_plane (tile_name : string) (scale : list Q) (cuts levels : Z)
    (strength : Q) (mat tex : nat) : object :=
  Object tile_name [1%Q; 1%Q; 1%Q] (Mesh [mat] 1 [cuts] [scale])
         [Modifier "Subdivision" (Subsurf levels);
          Modifier "Displace" (Displace strength (Some tex) "UV")]
         {[ "physics" := VBool false ]}.

(** Between the scene [h] before a plane construction and the scene [h']
    after it: the plane constructed is the object added to the scene; it has
    the two modifiers with the configured settings, its mesh was cut once, and
    the texture of its displacement is a texture created by the construction,
    an IMAGE texture called [tile_name_texture]. *)
Definition plane_modified_as_configured (cuts levels : Z) (strength : Q)
    (tile_name : string) (h h' : Host) : Prop :=
  ∃ plane tex,
    objects h' !! length (objects h) = Some plane
    ∧ ob_modifiers plane = [Modifier "Subdivision" (Subsurf levels);
                            Modifier "Displace" (Displace strength (Some tex) "UV")]
    ∧ me_cuts (ob_data plane) = [cuts]
    ∧ (length (textures h) ≤ tex)%nat
    ∧ textures h' !! tex = Some (Texture (tile_name +:+ "_texture") "IMAGE").

(** Likewise: the plane constructed is called [tile_name], has the custom
    property "physics" set to False, and carries one material, created by the
    construction under the requested name "re_ground_mat" and using nodes. *)
Definition plane_finished_as_claimed (tile_name : string) (h h' : Host) : Prop :=
  ∃ plane mat m,
    objects h' !! length (objects h) = Some plane
    ∧ ob_name plane = tile_name
    ∧ ob_props plane !! "physics" = Some (VBool false)
    ∧ me_materials (ob_data plane) = [mat]
    ∧ (length (materials h) ≤ mat)%nat
    ∧ materials h' !! mat = Some m
    ∧ mat_name m = unique_name "re_ground_mat" (mat_name <$> materials h)
    ∧ use_nodes m = true.


(** The keys of a tile. *)
Definition tile_keys : list string :=
  ["shader_path"; "plane_scale"; "subdivision_cuts"; "subdivision_render_levels";
   "displacement_strength"; "tile_name"; "AO"].

(** ** Properties of computations *)

(** [preserves f m]: running [m] leaves the component [f] of the state as it
    was, whether [m] returns or raises. *)
Definition preserves {S A B : Type} (f : S → B) (m : SE S A) : Prop :=
  ∀ s, f (m s).2 = f s.

(** [erases m m']: whenever [m] returns, [m'] returns the same value and the
    same state; [m'] will be [m] without its socket checks. *)
Definition erases {S A : Type} (m m' : SE S A) : Prop :=
  ∀ s a s', m s = (Ok a, s') → m' s = (Ok a, s').

(** [emits m cs]: running [m] adds operator calls to the journal whose names
    are a prefix of [cs], and all of [cs] when [m] returns. *)
Definition emits {A : Type} (m : M A) (cs : list string) : Prop :=
  ∀ h, ∃ done,
    op_names (m h).2 = op_names h ++ done
    ∧ done `prefix_of` cs
    ∧ ∀ a, (m h).1 = Ok a → done = cs.

(** [finds m]: [m] never raises [NotFoundError]. *)
Definition finds {S A : Type} (m : SE S A) : Prop :=
  ∀ s name, (m s).1 ≠ Raise (NotFoundError name).

(** ** Facts about the monad *)

Section monad.
Context {S : Type}.

Lemma bind_inv {A B : Type} (m : SE S A) (k : A → SE S B) s b s' :
  (m ≫= k) s = (Ok b, s') → ∃ a s1, m s = (Ok a, s1) ∧ k a s1 = (Ok b, s').
Proof.
  unfold mbind, SE_bind. destruct (m s) as [[a|e] s1]; [eauto | discriminate].
Qed.

Lemma bind_ok {A B : Type} (m : SE S A) (k : A → SE S B) s a s1 :
  m s = (Ok a, s1) → (m ≫= k) s = k a s1.
Proof. unfold mbind, SE_bind. by intros ->. Qed.

Lemma bind_raise {A B : Type} (m : SE S A) (k : A → SE S B) s e s1 :
  m s = (Raise e, s1) → (m ≫= k) s = (Raise e, s1).
Proof. unfold mbind, SE_bind. by intros ->. Qed.

Lemma bind_assoc {A B C : Type} (m : SE S A) (f : A → SE S B) (g : B → SE S C) s :
  ((m ≫= f) ≫= g) s = (m ≫= (λ a, f a ≫= g)) s.
Proof. unfold mbind, SE_bind. by destruct (m s) as [[a|e] s1]. Qed.

Lemma ret_inv {A : Type} (a b : A) (s s' : S) :
  (mret a : SE S A) s = (Ok b, s') → b = a ∧ s' = s.
Proof. by intros [= -> ->]. Qed.

Lemma gets_inv {A : Type} (f : S → A) s a s' :
  gets f s = (Ok a, s') → a = f s ∧ s' = s.
Proof. by intros [= <- <-]. Qed.

Lemma modify_inv (f : S → S) s a s' : modify f s = (Ok a, s') → s' = f s.
Proof. by intros [= <-]. Qed.

Lemma lift_inv {A : Type} (r : result A) (s : S) a s' :
  lift r s = (Ok a, s') → r = Ok a ∧ s' = s.
Proof. by intros [= -> ->]. Qed.

Lemma from_option_inv {A : Type} e (o : option A) (s : S) a s' :
  from_option e o s = (Ok a, s') → o = Some a ∧ s' = s.
Proof. destruct o; by intros [= -> ->]. Qed.

Lemma raise_inv {A : Type} e (s : S) (a : A) s' : raise e s = (Ok a, s') → False.
Proof. discriminate. Qed.

Lemma for_each_app {A : Type} (l1 l2 : list A) (body : A → SE S unit) s :
  for_each (l1 ++ l2) body s = (for_each l1 body;; for_each l2 body) s.
Proof.
  revert s. induction l1 as [|x l1 IH]; intros s; cbn [for_each app].
  - done.
  - rewrite bind_assoc. destruct (body x s) as [[[]|e] s1] eqn:E.
    + rewrite !(bind_ok _ _ _ _ _ E). apply IH.
    + by rewrite !(bind_raise _ _ _ _ _ E).
Qed.

(** A loop whose body does nothing on some elements is the loop over the
    others. *)
Lemma for_each_filter {A : Type} (keep : A → bool) (l : list A) (body : A → SE S unit) s :
  for_each l (λ x, if keep x then body x else mret tt) s
  = for_each (List.filter keep l) body s.
Proof.
  revert s. induction l as [|x l IH]; intros s; cbn [for_each List.filter]; [done|].
  destruct (keep x); cbn [for_each].
  - destruct (body x s) as [[[]|e] s1] eqn:E.
    + rewrite !(bind_ok _ _ _ _ _ E). apply IH.
    + by rewrite !(bind_raise _ _ _ _ _ E).
  - rewrite (bind_ok _ _ s tt s) by done. apply IH.
Qed.

End monad.

(** ** Facts about lists and names *)

Lemma lookup_last {A : Type} (l : list A) x : (l ++ [x]) !! length l = Some x.
Proof. by rewrite list_lookup_middle. Qed.

Lemma alter_last {A : Type} (f : A → A) (l : list A) x :
  alter f (length l) (l ++ [x]) = l ++ [f x].
Proof. replace (length l) with (length l + 0)%nat by lia. by rewrite alter_app_r. Qed.

Lemma delete_last {A : Type} (l : list A) x : delete (length l) (l ++ [x]) = l.
Proof. by rewrite delete_middle, app_nil_r. Qed.

Lemma unique_name_fresh base used : base ∉ used → unique_name base used = base.
Proof. intros Hn. unfold unique_name. by destruct (decide (base ∈ used)). Qed.

Lemma find_named_last {A : Type} (key : A → string) name l x :
  name ∉ key <$> l → key x = name → find_named key name (l ++ [x]) = Some (length l).
Proof.
  intros Hn Hx. unfold find_named.
  assert (list_find (λ y, key y = name) l = None) as Hl.
  { apply list_find_None, Forall_forall. intros y Hy Hk. apply Hn.
    apply list_elem_of_fmap. eauto. }
  rewrite list_find_app_r by done. cbn. by rewrite decide_True by done.
Qed.

Lemma find_named_lt {A : Type} (key : A → string) name (l : list A) i :
  find_named key name l = Some i → (i < length l)%nat.
Proof.
  unfold find_named. destruct (list_find _ l) as [[k x]|] eqn:E; [|done].
  intros [= <-]. apply list_find_Some in E as (E & _). by eapply lookup_lt_Some.
Qed.

Lemma pair_ok_inv {S A : Type} (v a : A) (s s1 : S) :
  (Ok v, s) = (Ok a, s1) → a = v ∧ s1 = s.
Proof. by intros [= -> ->]. Qed.

(** ** Tactics for the structure of computations *)

Ltac head_of t := lazymatch t with ?f _ => head_of f | _ => t end.

Ltac subst_eq H :=
  lazymatch type of H with
  | ?a = _ => first [subst a | idtac]
  end.

Ltac subst_pair H :=
  let Ha := fresh in
  let Hs := fresh in
  apply pair_ok_inv in H as [Ha Hs];
  lazymatch type of Ha with ?a = _ => first [subst a | clear Ha] end;
  lazymatch type of Hs with ?s = _ => first [subst s | clear Hs] end.

(** *** Components a computation leaves alone *)

Section preserves.
Context {S B : Type} (f : S → B).

Lemma preserves_ret {A : Type} (a : A) : preserves f (mret a).
Proof. done. Qed.

Lemma preserves_raise {A : Type} e : preserves f (raise e : SE S A).
Proof. done. Qed.

Lemma preserves_gets {A : Type} (g : S → A) : preserves f (gets g).
Proof. done. Qed.

Lemma preserves_lift {A : Type} (r : result A) : preserves f (lift r).
Proof. done. Qed.

Lemma preserves_from_option {A : Type} e (o : option A) : preserves f (from_option e o).
Proof. by destruct o. Qed.

Lemma preserves_modify (g : S → S) : (∀ s, f (g s) = f s) → preserves f (modify g).
Proof. intros Hg s. apply Hg. Qed.

Lemma preserves_bind {A C : Type} (m : SE S A) (k : A → SE S C) :
  preserves f m → (∀ a, preserves f (k a)) → preserves f (m ≫= k).
Proof.
  intros Hm Hk s. unfold mbind, SE_bind. specialize (Hm s).
  destruct (m s) as [[a|e] s1]; cbn in *; [|done].
  by rewrite Hk.
Qed.

Lemma preserves_for_each {A : Type} (l : list A) (body : A → SE S unit) :
  (∀ x, preserves f (body x)) → preserves f (for_each l body).
Proof.
  intros Hb. induction l as [|x l IH]; cbn [for_each].
  - apply preserves_ret.
  - by apply preserves_bind.
Qed.

End preserves.

Ltac solve_preserves :=
  repeat first
    [ apply preserves_bind; [| intros ?]
    | apply preserves_ret | apply preserves_raise | apply preserves_gets
    | apply preserves_lift | apply preserves_from_option
    | apply preserves_modify; intros []; reflexivity
    | match goal with |- preserves _ (match ?x with _ => _ end) => destruct x end
    | match goal with |- preserves _ (if ?x then _ else _) => destruct x end
    | match goal with |- preserves _ ?m => let hd := head_of m in progress unfold hd end ].

(** *** Leaving the socket checks out *)

Lemma erases_refl {S A : Type} (m : SE S A) : erases m m.
Proof. by intros s a s'. Qed.

Lemma erases_bind {S A B : Type} (m m' : SE S A) (k k' : A → SE S B) :
  erases m m' → (∀ a, erases (k a) (k' a)) → erases (m ≫= k) (m' ≫= k').
Proof.
  intros Hm Hk s b s' H. apply bind_inv in H as (a & s1 & H1 & H2).
  rewrite (bind_ok _ _ _ _ _ (Hm _ _ _ H1)). by apply Hk.
Qed.

Lemma erases_check {S A : Type} (c : bool) (m m' : SE S A) e :
  erases m m' → erases (if c then m else raise e) m'.
Proof. intros Hm s a s' H. destruct c; [by apply Hm | discriminate]. Qed.

Ltac solve_erases :=
  repeat lazymatch goal with
  | |- erases (node_inputs _ _) _ => unfold node_inputs
  | |- erases (node_outputs _ _) _ => unfold node_outputs
  | |- erases (if has_socket _ _ then _ else raise _) _ => apply erases_check
  | |- erases (if ?c then _ else _) _ =>
      let v := eval vm_compute in c in change c with v; cbv iota
  | |- erases (_ ≫= _) _ => eapply erases_bind; [| intros ?]
  | |- erases _ _ => apply erases_refl
  end.

(** Replaces the computation of [H : p t = (Ok r, t')] by one without socket
    checks and runs it. *)
Ltac run_tree H :=
  lazymatch type of H with
  | ?p _ = (Ok _, _) =>
      let E := fresh in
      eassert (erases p _) as E by solve_erases;
      apply E in H; clear E; vm_compute in H; subst_pair H
  end.

(** *** Operator calls a computation makes *)

Lemma emits_silent {A : Type} (m : M A) : preserves journal m → emits m [].
Proof.
  intros Hm h. exists []. unfold op_names. rewrite Hm, app_nil_r. by repeat split.
Qed.

Lemma emits_log c name : op c = name → emits (log c) [name].
Proof.
  intros <- h. exists [op c]. unfold op_names. cbn. by rewrite fmap_app.
Qed.

Lemma emits_bind {A B : Type} (m : M A) (k : A → M B) cs1 cs2 :
  emits m cs1 → (∀ a, emits (k a) cs2) → emits (m ≫= k) (cs1 ++ cs2).
Proof.
  intros Hm Hk h. destruct (Hm h) as (d1 & E1 & P1 & F1).
  destruct (m h) as [[a|e] h1] eqn:Em; cbn [fst snd] in *.
  - rewrite (bind_ok _ _ _ _ _ Em). destruct (Hk a h1) as (d2 & E2 & P2 & F2).
    exists (cs1 ++ d2). rewrite E2, E1, (F1 a eq_refl), (assoc_L (++)).
    split; [done|]. split; [by apply prefix_app|].
    intros b Hb. by rewrite (F2 b Hb).
  - rewrite (bind_raise _ _ _ _ _ Em). exists d1. split; [done|].
    split; [by apply prefix_app_r | done].
Qed.

Lemma emits_eq {A : Type} (m : M A) cs cs' : emits m cs → cs = cs' → emits m cs'.
Proof. by intros H <-. Qed.

Lemma emits_for_each {A : Type} (l : list A) (body : A → M unit) cs :
  (∀ x, emits (body x) cs) → emits (for_each l body) (concat ((λ _, cs) <$> l)).
Proof.
  intros Hb. induction l as [|x l IH]; cbn [for_each fmap list_fmap concat].
  - apply emits_silent, preserves_ret.
  - by apply emits_bind.
Qed.

Ltac solve_emits :=
  repeat first
    [ eapply emits_log; cbn [op]; reflexivity
    | eapply emits_bind; [| intros ?]
    | match goal with |- emits (match ?x with _ => _ end) _ => destruct x end
    | match goal with |- emits (if ?x then _ else _) _ => destruct x end
    | apply emits_silent; solve [solve_preserves]
    | match goal with |- emits ?m _ => let hd := head_of m in progress unfold hd end ].

Lemma load_shader_emits cfg : emits (_load_shader cfg) shader_import_calls.
Proof. eapply emits_eq; [solve_emits | reflexivity]. Qed.

Lemma construct_ground_plane_emits cfg :
  emits (_construct_ground_plane cfg) plane_construction_calls.
Proof. eapply emits_eq; [solve_emits | reflexivity]. Qed.

(** *** Exceptions a computation cannot raise *)

Section finds.
Context {S : Type}.

Lemma finds_ret {A : Type} (a : A) : finds (mret a : SE S A).
Proof. done. Qed.

Lemma finds_gets {A : Type} (g : S → A) : finds (gets g).
Proof. done. Qed.

Lemma finds_modify (g : S → S) : finds (modify g).
Proof. done. Qed.

Lemma finds_raise {A : Type} e :
  (∀ name, e ≠ NotFoundError name) → finds (raise e : SE S A).
Proof. intros He s name [= E]. exact (He name E). Qed.

Lemma finds_from_option {A : Type} e (o : option A) :
  (∀ name, e ≠ NotFoundError name) → finds (from_option e o : SE S A).
Proof. intros He. destruct o; [done | by apply finds_raise]. Qed.

Lemma finds_lift {A : Type} (r : result A) :
  (∀ name, r ≠ Raise (NotFoundError name)) → finds (lift r : SE S A).
Proof. intros Hr s name. apply Hr. Qed.

Lemma finds_bind {A B : Type} (m : SE S A) (k : A → SE S B) :
  finds m → (∀ a, finds (k a)) → finds (m ≫= k).
Proof.
  intros Hm Hk s name. unfold mbind, SE_bind. specialize (Hm s name).
  destruct (m s) as [[a|e] s1]; cbn [fst snd] in *; [apply Hk |].
  intros [= E]. by apply Hm; rewrite E.
Qed.

End finds.

(** A getter with a fallback does not raise [NotFoundError]. *)
Lemma get_with_fallback_finds {A : Type} (conv : value → result A) cfg key x name :
  (∀ v, conv v ≠ Raise (NotFoundError name)) →
  Config.get_with conv cfg key (Some x) ≠ Raise (NotFoundError name).
Proof.
  intros Hc. unfold Config.get_with, Config.get_raw.
  destruct (Config.data cfg); try done. cbn. by destruct (_ !! key).
Qed.

Lemma as_vector3d_finds v name : Config.as_vector3d v ≠ Raise (NotFoundError name).
Proof.
  destruct v as [| | | | |l|]; try done. cbn.
  destruct l as [|x [|y [|z [|]]]]; try done.
  by destruct x, y, z.
Qed.

Lemma tree_program_finds {A : Type} handle (p : T A) : finds p → finds (with_tree handle p).
Proof.
  intros Hp. unfold with_tree.
  apply finds_bind; [apply finds_gets | intros ms].
  apply finds_bind; [apply finds_from_option; discriminate | intros m].
  apply finds_bind; [apply finds_from_option; discriminate | intros t].
  apply finds_bind; [apply finds_modify | intros _].
  intros s name. apply Hp.
Qed.

Ltac solve_finds :=
  repeat lazymatch goal with
  | |- finds (with_tree _ _) => apply tree_program_finds
  | |- finds (_ ≫= _) => apply finds_bind; [| intros ?]
  | |- finds (mret _) => apply finds_ret
  | |- finds (gets _) => apply finds_gets
  | |- finds (modify _) => apply finds_modify
  | |- finds (raise _) => apply finds_raise; discriminate
  | |- finds (from_option _ _) => apply finds_from_option; discriminate
  | |- finds (lift _) =>
      apply finds_lift; intros ?;
      unfold Config.get_string, Config.get_int, Config.get_float, Config.get_list,
             Config.get_vector3d;
      apply get_with_fallback_finds;
      first [ intros ?; apply as_vector3d_finds | intros []; discriminate ]
  | |- finds (match ?x with _ => _ end) => destruct x
  | |- finds (if ?x then _ else _) => destruct x
  | |- finds ?m => let hd := head_of m in progress unfold hd
  end.

Lemma construct_ground_plane_finds cfg : finds (_construct_ground_plane cfg).
Proof. solve_finds. Qed.

(** ** Running the script on a known scene *)

(** [with_tree] on the last material runs the computation on its tree. *)
Lemma with_tree_last {A : Type} (p : T A) d os ms nm u t gs ts a md j :
  with_tree (length ms) p (mkHost d os (ms ++ [Material nm u (Some t)]) gs ts a md j)
  = ((p t).1, mkHost d os (ms ++ [Material nm u (Some (p t).2)]) gs ts a md j).
Proof.
  unfold with_tree.
  erewrite bind_ok by reflexivity. cbn [materials].
  rewrite lookup_last. cbn [from_option]. erewrite bind_ok by reflexivity.
  cbn [node_tree from_option]. erewrite bind_ok by reflexivity.
  erewrite bind_ok by reflexivity. unfold set_materials, lift.
  cbn [materials disk objects node_groups textures active mode journal].
  by rewrite alter_last.
Qed.

Lemma with_tree_last_inv {A : Type} (p : T A) d os ms nm u t gs ts a md j r h' :
  with_tree (length ms) p (mkHost d os (ms ++ [Material nm u (Some t)]) gs ts a md j)
  = (Ok r, h') →
  ∃ t', p t = (Ok r, t') ∧ h' = mkHost d os (ms ++ [Material nm u (Some t')]) gs ts a md j.
Proof.
  rewrite with_tree_last. intros [= Hr <-]. exists (p t).2. split; [|done].
  destruct (p t) as [r' t']. cbn in *. by subst.
Qed.

(** [with_tree] changes nothing but the materials. *)
Lemma with_tree_inv_frame {A : Type} k (p : T A) d os ms gs ts a md j r h' :
  with_tree k p (mkHost d os ms gs ts a md j) = (r, h') →
  ∃ ms', h' = mkHost d os ms' gs ts a md j.
Proof.
  intros H. exists (materials h').
  pose proof (ltac:(solve_preserves) : preserves disk (with_tree k p)) as F1.
  pose proof (ltac:(solve_preserves) : preserves objects (with_tree k p)) as F2.
  pose proof (ltac:(solve_preserves) : preserves node_groups (with_tree k p)) as F3.
  pose proof (ltac:(solve_preserves) : preserves textures (with_tree k p)) as F4.
  pose proof (ltac:(solve_preserves) : preserves active (with_tree k p)) as F5.
  pose proof (ltac:(solve_preserves) : preserves mode (with_tree k p)) as F6.
  pose proof (ltac:(solve_preserves) : preserves journal (with_tree k p)) as F7.
  specialize (F1 (mkHost d os ms gs ts a md j)).
  specialize (F2 (mkHost d os ms gs ts a md j)).
  specialize (F3 (mkHost d os ms gs ts a md j)).
  specialize (F4 (mkHost d os ms gs ts a md j)).
  specialize (F5 (mkHost d os ms gs ts a md j)).
  specialize (F6 (mkHost d os ms gs ts a md j)).
  specialize (F7 (mkHost d os ms gs ts a md j)).
  rewrite H in *. destruct h'. cbn in *. by subst.
Qed.

Lemma frame_fields {A : Type} (m : M A) h a h1 :
  preserves materials m → preserves node_groups m → m h = (Ok a, h1) →
  materials h1 = materials h ∧ node_groups h1 = node_groups h.
Proof.
  intros Hm Hg H. specialize (Hm h). specialize (Hg h). by rewrite H in Hm, Hg.
Qed.

(** Brings the scene in a hypothesis to the form of a record. *)
Ltac simpl_host H :=
  cbv beta iota delta [disk objects materials node_groups textures active mode journal
       set_objects set_materials set_node_groups set_textures set_active set_mode
       set_journal log rename_object] in H;
  rewrite ?alter_last, ?lookup_last, ?delete_last in H;
  cbn [String.eqb Ascii.eqb Bool.eqb mat_name use_nodes node_tree
       ob_name ob_scale ob_data ob_modifiers ob_props me_materials me_planes me_cuts
       me_applied_scales md_name md_data new_plane add_plane_to_mesh subdivide_mesh
       add_modifier apply_scale set_texture set_texture_coords set_strength
       set_render_levels] in H.

Ltac try_compute H :=
  let P := type of H in
  let P' := eval vm_compute in P in
  lazymatch P' with
  | Some _ = Some _ => change P' in H
  end.

(** What a lookup that succeeded returned, when that can be computed. *)
Ltac resolve H :=
  simpl_host H;
  try lazymatch type of H with
  | Some _ = Some _ => idtac
  | context [md_name] => try_compute H
  | context [Modifier] => try_compute H
  end;
  try lazymatch type of H with
  | Some _ = Some ?a => injection H as H; first [subst a | symmetry in H; subst_eq H]
  end.

(** Inversion of [H : m h = (Ok a, h')] along the structure of [m]; [tw] is
    the tactic for the computations on node trees. *)
Ltac invM tw H :=
  cbv beta zeta in H;
  lazymatch type of H with
  | @mbind _ _ _ _ _ _ _ = (Ok _, _) =>
      let a := fresh "a" in
      let h := fresh "h" in
      let H1 := fresh "H" in
      apply bind_inv in H as (a & h & H1 & H); invM tw H1; simpl_host H; invM tw H
  | raise _ _ = (Ok _, _) => destruct (raise_inv _ _ _ _ H)
  | @mret _ _ _ _ _ = (Ok _, _) => subst_pair H
  | gets _ _ = (Ok _, _) => unfold gets in H; simpl_host H; subst_pair H
  | modify _ _ = (Ok _, _) => unfold modify in H; simpl_host H; subst_pair H
  | lift _ _ = (Ok _, _) =>
      let Hs := fresh in
      apply lift_inv in H as [H Hs]; subst_eq Hs;
      try lazymatch type of H with
      | Ok _ = Ok ?a => injection H as H; first [subst a | symmetry in H; subst_eq H]
      end
  | from_option _ _ _ = (Ok _, _) =>
      let Hs := fresh in
      apply from_option_inv in H as [H Hs]; subst_eq Hs; resolve H
  | with_tree _ _ _ = (Ok _, _) => tw H
  | (if ?c then _ else _) _ = (Ok _, _) =>
      lazymatch type of c with
      | sumbool _ _ => destruct c
      | _ => destruct c eqn:?
      end; invM tw H
  | (match ?x with _ => _ end) _ = (Ok _, _) => destruct x eqn:?; invM tw H
  | ?m _ = (Ok _, _) =>
      let hd := head_of m in unfold hd in H; invM tw H
  end.

(** The computation on the tree is run. *)
Ltac tw_graph H :=
  let t' := fresh "t" in
  let Hp := fresh "Hp" in
  apply with_tree_last_inv in H as (t' & Hp & H); subst_eq H; run_tree Hp.

(** The computation on the tree is passed over. *)
Ltac tw_frame H :=
  let ms' := fresh "ms" in
  apply with_tree_inv_frame in H as (ms' & H); subst_eq H.

(** One statement of the script. *)
Ltac step tw H :=
  let a := fresh "a" in
  let h1 := fresh "h" in
  let H1 := fresh "H" in
  cbv beta zeta in H;
  apply bind_inv in H as (a & h1 & H1 & H); invM tw H1; simpl_host H.

(** One statement of the script that touches neither materials nor node
    groups. *)
Ltac frame_step H :=
  let a := fresh "a" in
  let h1 := fresh "h" in
  let H1 := fresh "H" in
  let Fm := fresh "Fm" in
  let Fg := fresh "Fg" in
  cbv beta zeta in H;
  apply bind_inv in H as (a & h1 & H1 & H);
  apply frame_fields in H1 as [Fm Fg]; [| solve_preserves ..];
  destruct h1; cbn [materials node_groups] in Fm, Fg; subst.

(** The material graph: whenever the construction returns, it has added one
    material to the scene, and its tree is [rock_material_graph]. *)
Lemma construct_ground_plane_graph cfg h h' ao :
  Config.get_list cfg "AO" (Some [VInt 1; VInt 1; VInt 1; VInt 1]) = Ok ao →
  _construct_ground_plane cfg h = (Ok tt, h') →
  ∃ i g, find_named ng_name "PBR Rock Shader" (node_groups h) = Some i
         ∧ node_groups h !! i = Some g
         ∧ node_groups h' = node_groups h
         ∧ materials h' = materials h ++
             [Material (unique_name "re_ground_mat" (mat_name <$> materials h)) true
                       (Some (rock_material_graph g ao))].
Proof.
  intros Hao H. unfold _construct_ground_plane in H. rewrite Hao in H.
  destruct h as [d os ms gs ts a md j].
  do 6 step tw_graph H.
  do 4 frame_step H.
  do 2 step tw_graph H.
  frame_step H.
  do 2 step tw_graph H.
  do 10 step tw_graph H.
  do 11 frame_step H.
  apply frame_fields in H as [Fm Fg]; [| solve_preserves ..].
  cbn [materials node_groups] in *.
  match goal with
  | Hf : find_named ng_name _ gs = Some ?i, Hl : gs !! ?i = Some ?g |- _ =>
      exists i, g; split; [exact Hf|]; split; [exact Hl|]; split; [exact Fg|];
      rewrite Fm; destruct g
  end.
  solve [do 3 f_equal; try (vm_compute; reflexivity)].
Qed.

(** The plane: in object mode and with a name that no object bears, whenever
    the construction returns it has added [ground_plane] to the scene. *)
Lemma construct_ground_plane_objects cfg h h' scale cuts levels strength tile_name :
  Config.get_vector3d cfg "plane_scale" (Some [1%Q; 1%Q; 1%Q]) = Ok scale →
  Config.get_int cfg "subdivision_cuts" (Some 50%Z) = Ok cuts →
  Config.get_int cfg "subdivision_render_levels" (Some 3%Z) = Ok levels →
  Config.get_float cfg "displacement_strength" (Some 1%Q) = Ok strength →
  Config.get_string cfg "tile_name" (Some "RE_ground_plane") = Ok tile_name →
  mode h = OBJECT →
  tile_name ∉ ob_name <$> objects h →
  _construct_ground_plane cfg h = (Ok tt, h') →
  let new_texture :=
    Texture (unique_name (tile_name +:+ "_texture") (tex_name <$> textures h)) "IMAGE" in
  ∃ tex,
    find_named tex_name (tile_name +:+ "_texture") (textures h ++ [new_texture]) = Some tex
    ∧ objects h' = objects h ++
        [ground_plane tile_name scale cuts levels strength (length (materials h)) tex]
    ∧ textures h' = textures h ++ [new_texture]
    ∧ active h' = Some (length (objects h))
    ∧ mode h' = OBJECT
    ∧ journal h' = journal h ++ construction_calls cuts.
Proof.
  intros Hscale Hcuts Hlevels Hstrength Hname Hmode Hfresh H.
  unfold _construct_ground_plane in H.
  rewrite Hscale, Hcuts, Hlevels, Hstrength, Hname in H.
  destruct h as [d os ms gs ts a md j]. cbn [mode objects materials textures journal] in *.
  subst md.
  do 8 step tw_frame H.
  rewrite unique_name_fresh in H by done.
  step tw_frame H.
  match goal with
  | Hf : find_named ob_name _ _ = Some _ |- _ =>
      rewrite find_named_last in Hf by done; injection Hf as <-
  end.
  simpl_host H.
  repeat step tw_frame H.
  invM tw_frame H.
  match goal with
  | Hf : find_named tex_name _ _ = Some ?tex |- _ => exists tex; split; [exact Hf|]
  end.
  cbn [objects textures active mode journal].
  repeat split.
  rewrite <- !(assoc_L (++)). reflexivity.
Qed.


(** ** The configuration read by the script *)

Lemma get_with_lookup {A : Type} (conv : value → result A) d key fallback :
  Config.get_with conv (Config.Config (VDict d)) key fallback
  = match d !! key with
    | Some v => conv v
    | None =>
        match fallback with
        | Some x => Ok x
        | None => Raise (NotFoundError key)
        end
    end.
Proof. reflexivity. Qed.

(** The script reads a tile through seven lookups. *)
Lemma tile_reads_agree d1 d2 h :
  (∀ k, k ∈ tile_keys → d1 !! k = d2 !! k) →
  (_load_shader (Config.Config (VDict d1));;
   _construct_ground_plane (Config.Config (VDict d1))) h
  = (_load_shader (Config.Config (VDict d2));;
     _construct_ground_plane (Config.Config (VDict d2))) h.
Proof.
  intros Hk.
  unfold _load_shader, _construct_ground_plane, Config.get_string, Config.get_int,
         Config.get_float, Config.get_list, Config.get_vector3d.
  rewrite !get_with_lookup.
  rewrite !(Hk "shader_path"), !(Hk "plane_scale"), !(Hk "subdivision_cuts"),
          !(Hk "subdivision_render_levels"), !(Hk "displacement_strength"),
          !(Hk "tile_name"), !(Hk "AO")
    by (unfold tile_keys; set_solver).
  reflexivity.
Qed.

Lemma truthy_dict d : d ≠ ∅ → truthy (VDict d) = true.
Proof. intros Hd. cbn. by rewrite bool_decide_eq_false_2. Qed.

Lemma run_tiles c tiles h :
  c !! "tiles" = Some (VList tiles) →
  run (Config.Config (VDict c)) h
  = for_each tiles (λ tile,
      if truthy tile then
        _load_shader (Config.Config tile);; _construct_ground_plane (Config.Config tile)
      else mret tt) h.
Proof.
  intros Hc. unfold run, Config.get_list. rewrite get_with_lookup, Hc. reflexivity.
Qed.

Lemma run_config_of_tiles tiles h :
  run (config_of_tiles tiles) h
  = for_each tiles (λ tile,
      if truthy tile then
        _load_shader (Config.Config tile);; _construct_ground_plane (Config.Config tile)
      else mret tt) h.
Proof. apply run_tiles. apply lookup_singleton_eq. Qed.

(** A loop sees an element only through what the body does with it. *)
Lemma for_each_swap {S A : Type} (pre post : list A) x y (body : A → SE S unit) s :
  (∀ s1, body x s1 = body y s1) →
  for_each (pre ++ x :: post) body s = for_each (pre ++ y :: post) body s.
Proof.
  intros Hxy. rewrite !for_each_app. cbn [for_each].
  destruct (for_each pre body s) as [[[]|e] s1] eqn:E.
  - rewrite !(bind_ok _ _ _ _ _ E).
    destruct (body x s1) as [[[]|e] s2] eqn:Ex.
    + rewrite (bind_ok _ _ _ _ _ Ex). rewrite Hxy in Ex. by rewrite (bind_ok _ _ _ _ _ Ex).
    + rewrite (bind_raise _ _ _ _ _ Ex). rewrite Hxy in Ex.
      by rewrite (bind_raise _ _ _ _ _ Ex).
  - by rewrite !(bind_raise _ _ _ _ _ E).
Qed.

(** A construction that returned has read the six optional keys. *)
Lemma construct_ground_plane_reads cfg h h' :
  _construct_ground_plane cfg h = (Ok tt, h') →
  ∃ scale cuts levels strength tile_name ao,
    Config.get_vector3d cfg "plane_scale" (Some [1%Q; 1%Q; 1%Q]) = Ok scale
    ∧ Config.get_int cfg "subdivision_cuts" (Some 50%Z) = Ok cuts
    ∧ Config.get_int cfg "subdivision_render_levels" (Some 3%Z) = Ok levels
    ∧ Config.get_float cfg "displacement_strength" (Some 1%Q) = Ok strength
    ∧ Config.get_string cfg "tile_name" (Some "RE_ground_plane") = Ok tile_name
    ∧ Config.get_list cfg "AO" (Some [VInt 1; VInt 1; VInt 1; VInt 1]) = Ok ao.
Proof.
  intros H. unfold _construct_ground_plane in H.
  apply bind_inv in H as (scale & ? & [H1 ->]%lift_inv & H).
  apply bind_inv in H as (cuts & ? & [H2 ->]%lift_inv & H).
  apply bind_inv in H as (levels & ? & [H3 ->]%lift_inv & H).
  apply bind_inv in H as (strength & ? & [H4 ->]%lift_inv & H).
  apply bind_inv in H as (tile_name & ? & [H5 ->]%lift_inv & H).
  apply bind_inv in H as (ao & ? & [H6 ->]%lift_inv & H).
  by exists scale, cuts, levels, strength, tile_name, ao.
Qed.

(** ** The claims *)

(** C1. For every truthy tile of the configured "tiles" list, [run] executes the
    shader import and then the plane construction, and nothing else: [run] is
    the loop over the truthy tiles whose body is [_load_shader] followed by
    [_construct_ground_plane], and the operator calls it makes are, tile after
    tile, the call of the import followed by the calls of the construction
    (all of them when [run] returns, a prefix of them when it raises). *)
Theorem run_two_phases_per_truthy_tile cfg tiles h :
  Config.get_list cfg "tiles" (Some []) = Ok tiles →
  run cfg h
  = for_each (List.filter truthy tiles) (λ tile,
      _load_shader (Config.Config tile);;
      _construct_ground_plane (Config.Config tile)) h
  ∧ ∃ done,
      op_names (run cfg h).2 = op_names h ++ done
      ∧ done `prefix_of` concat ((λ _, tile_calls) <$> List.filter truthy tiles)
      ∧ ∀ u, (run cfg h).1 = Ok u →
             done = concat ((λ _, tile_calls) <$> List.filter truthy tiles).
Proof.
  intros Ht.
  assert (run cfg h
          = for_each (List.filter truthy tiles) (λ tile,
              _load_shader (Config.Config tile);;
              _construct_ground_plane (Config.Config tile)) h) as E.
  { unfold run. rewrite Ht. rewrite (bind_ok _ _ h tiles h) by done.
    apply for_each_filter. }
  split; [exact E|]. rewrite E.
  apply emits_for_each. intros tile.
  eapply emits_eq;
    [eapply emits_bind; [apply load_shader_emits | intros; apply construct_ground_plane_emits]
    | reflexivity].
Qed.

Lemma run_two_phases_witness :
  let tiles := [default_tile; VDict ∅; default_tile] in
  let cfg := config_of_tiles tiles in
  run cfg empty_scene
  = for_each (List.filter truthy tiles) (λ tile,
      _load_shader (Config.Config tile);;
      _construct_ground_plane (Config.Config tile)) empty_scene
  ∧ ∃ done,
      op_names (run cfg empty_scene).2 = op_names empty_scene ++ done
      ∧ done `prefix_of` concat ((λ _, tile_calls) <$> List.filter truthy tiles)
      ∧ ∀ u, (run cfg empty_scene).1 = Ok u →
             done = concat ((λ _, tile_calls) <$> List.filter truthy tiles).
Proof.
  intros tiles cfg.
  apply (run_two_phases_per_truthy_tile cfg tiles empty_scene).
  vm_compute. reflexivity.
Defined.

(** C2. The shader import of a tile whose "shader_path" is the string
    [shader_path] makes one operator call, [wm.append], whose filename is
    "PBR Rock Shader" and whose directory is [shader_path] followed by
    "/NodeTree"; no other call is made.  When that directory is a section of an
    asset file holding a node group called "PBR Rock Shader", the call returns
    and that node group, and nothing else, is added to the node groups of the
    scene (under the first free name); when the section holds no such group
    the call returns and adds nothing; when there is no such section the call
    raises, and no node group is added. *)
Theorem load_shader_appends_rock_shader d shader_path h :
  d !! "shader_path" = Some (VStr shader_path) →
  let r := _load_shader (Config.Config (VDict d)) h in
  journal r.2 = journal h ++ [append_call shader_path]
  ∧ match disk h !! (shader_path +:+ "/NodeTree") with
    | None => r.1 = Raise (RuntimeError "wm.append") ∧ node_groups r.2 = node_groups h
    | Some groups =>
        r.1 = Ok tt
        ∧ match list_find (λ g, ng_name g = "PBR Rock Shader") groups with
          | None => node_groups r.2 = node_groups h
          | Some (_, g) =>
              node_groups r.2 = node_groups h ++
                [NodeGroup (unique_name "PBR Rock Shader" (ng_name <$> node_groups h))
                           (ng_inputs g) (ng_outputs g)]
          end
    end.
Proof.
  intros Hd r. subst r. unfold _load_shader, Config.get_string.
  rewrite get_with_lookup, Hd. cbn [Config.as_string].
  rewrite (bind_ok _ _ h shader_path h) by done.
  unfold ops_wm_append.
  erewrite bind_ok by reflexivity.
  erewrite bind_ok by reflexivity.
  destruct h as [dk os ms gs ts a md j].
  cbn [disk set_journal objects materials node_groups textures active mode journal].
  change (os_path.join (shader_path +:+ "/NodeTree") []) with (shader_path +:+ "/NodeTree").
  destruct (dk !! (shader_path +:+ "/NodeTree")) as [groups|]; [|done].
  destruct (list_find _ groups) as [[i g]|] eqn:Hg; [|done].
  apply list_find_Some in Hg as (_ & Hname & _). cbn. by rewrite Hname.
Qed.

Lemma load_shader_witness :
  let r := _load_shader (Config.Config default_tile) empty_scene in
  journal r.2 = journal empty_scene ++ [append_call "/assets/rocks.blend"]
  ∧ r.1 = Ok tt
  ∧ node_groups r.2 = [rock_shader].
Proof.
  intros r.
  pose proof (load_shader_appends_rock_shader
                {[ "shader_path" := VStr "/assets/rocks.blend" ]} "/assets/rocks.blend"
                empty_scene (lookup_singleton_eq _ _)) as [Hj Hg].
  split; [exact Hj|]. vm_compute in Hg. exact Hg.
Defined.

(** C3. When the plane construction returns, it has added one material to the
    scene, and its node tree is [rock_material_graph]: the Principled BSDF node
    is gone; a group node referring to the node group "PBR Rock Shader" has its
    "AO" input set to the AO value of the tile and its "Shader" output linked
    to the "Surface" input of the material output; four image textures were
    created, labelled color, roughness, reflection and normal in this order;
    the "Color" output of the first three is linked to the group inputs
    "Color", "Roughness" and "Reflection"; the "Color" output of the fourth is
    linked to the "Color" input of a Normal Map node, whose "Normal" output is
    linked to the group input "Normal".  There are no other nodes or links. *)
Theorem construct_ground_plane_builds_material_graph cfg ao h h' :
  Config.get_list cfg "AO" (Some [VInt 1; VInt 1; VInt 1; VInt 1]) = Ok ao →
  _construct_ground_plane cfg h = (Ok tt, h') →
  ∃ i g,
    find_named ng_name "PBR Rock Shader" (node_groups h) = Some i
    ∧ node_groups h !! i = Some g
    ∧ materials h' = materials h ++
        [Material (unique_name "re_ground_mat" (mat_name <$> materials h)) true
                  (Some (rock_material_graph g ao))].
Proof.
  intros Hao H.
  destruct (construct_ground_plane_graph _ _ _ _ Hao H) as (i & g & Hi & Hg & _ & Hm).
  by exists i, g.
Qed.

Lemma material_graph_witness :
  let h := (_load_shader (Config.Config default_tile) empty_scene).2 in
  let h' := (_construct_ground_plane (Config.Config default_tile) h).2 in
  ∃ i g,
    find_named ng_name "PBR Rock Shader" (node_groups h) = Some i
    ∧ node_groups h !! i = Some g
    ∧ materials h' = materials h ++
        [Material (unique_name "re_ground_mat" (mat_name <$> materials h)) true
                  (Some (rock_material_graph g [VInt 1; VInt 1; VInt 1; VInt 1]))].
Proof.
  intros h h'.
  apply (construct_ground_plane_builds_material_graph (Config.Config default_tile)
           [VInt 1; VInt 1; VInt 1; VInt 1] h h').
  - vm_compute. reflexivity.
  - vm_compute. reflexivity.
Defined.

(** C4, as stated, for every tile: refuted by the second of two tiles that
    keep the default name.  In object mode the construction returns, yet the
    plane it adds has a displacement modifier without a texture: the script
    looks the plane up by name, finds the plane of the first tile, and assigns
    the texture there. *)
Lemma second_default_tile_not_modified_as_configured :
  let r := _construct_ground_plane (Config.Config default_tile) second_import_scene in
  mode second_import_scene = OBJECT
  ∧ r.1 = Ok tt
  ∧ ¬ plane_modified_as_configured 50 3 1 "RE_ground_plane" second_import_scene r.2.
Proof.
  intros r. split; [by vm_compute|]. split; [by vm_compute|].
  intros (plane & tex & Hplane & Hmods & _).
  vm_compute in Hplane. injection Hplane as <-. discriminate Hmods.
Qed.

(** C4, amended.  In object mode, when no object of the scene is called
    [tile_name] and no texture is called [tile_name_texture], a plane
    construction that returns has added one plane carrying exactly two
    modifiers, a subdivision and a displacement; the mesh was subdivided in
    edit mode with [number_cuts] the "subdivision_cuts" of the tile; the render
    levels of the subdivision are the "subdivision_render_levels" of the tile;
    the strength of the displacement is the "displacement_strength" of the
    tile; its texture is an IMAGE texture created by the construction and
    called [tile_name_texture], and its texture coordinates are "UV". *)
Theorem plane_modified_as_configured_when_names_are_free
    cfg h h' cuts levels strength tile_name :
  Config.get_int cfg "subdivision_cuts" (Some 50%Z) = Ok cuts →
  Config.get_int cfg "subdivision_render_levels" (Some 3%Z) = Ok levels →
  Config.get_float cfg "displacement_strength" (Some 1%Q) = Ok strength →
  Config.get_string cfg "tile_name" (Some "RE_ground_plane") = Ok tile_name →
  mode h = OBJECT →
  tile_name ∉ ob_name <$> objects h →
  tile_name +:+ "_texture" ∉ tex_name <$> textures h →
  _construct_ground_plane cfg h = (Ok tt, h') →
  plane_modified_as_configured cuts levels strength tile_name h h'
  ∧ journal h' = journal h ++ construction_calls cuts.
Proof.
  intros Hcuts Hlevels Hstrength Hname Hmode Hobj Htex H.
  destruct (construct_ground_plane_reads _ _ _ H) as (scale & ? & ? & ? & ? & ? & Hscale & _).
  destruct (construct_ground_plane_objects _ _ _ _ _ _ _ _
              Hscale Hcuts Hlevels Hstrength Hname Hmode Hobj H)
    as (tex & Hfind & Hobjs & Htexs & _ & _ & Hj).
  rewrite unique_name_fresh in Hfind, Htexs by done.
  rewrite find_named_last in Hfind by done. injection Hfind as <-.
  split; [|exact Hj].
  eexists _, (length (textures h)). rewrite Hobjs, Htexs, !lookup_last.
  repeat split; first [done | lia].
Qed.

Lemma plane_modified_witness :
  let h := (_load_shader (Config.Config default_tile) empty_scene).2 in
  let h' := (_construct_ground_plane (Config.Config default_tile) h).2 in
  plane_modified_as_configured 50 3 1 "RE_ground_plane" h h'
  ∧ journal h' = journal h ++ construction_calls 50.
Proof.
  intros h h'.
  apply (plane_modified_as_configured_when_names_are_free (Config.Config default_tile)
           h h' 50 3 1 "RE_ground_plane");
    try (vm_compute; reflexivity).
  - vm_compute. apply not_elem_of_nil.
  - vm_compute. apply not_elem_of_nil.
Defined.

(** C10, as stated, for every tile: refuted by the second of two tiles that
    keep the default name.  In object mode the construction returns, yet the
    plane it adds is not called "RE_ground_plane": that name is taken, and the
    host gives the plane the next free name. *)
Lemma second_default_tile_not_finished_as_claimed :
  let r := _construct_ground_plane (Config.Config default_tile) second_import_scene in
  mode second_import_scene = OBJECT
  ∧ r.1 = Ok tt
  ∧ ¬ plane_finished_as_claimed "RE_ground_plane" second_import_scene r.2.
Proof.
  intros r. split; [by vm_compute|]. split; [by vm_compute|].
  intros (plane & mat & m & Hplane & Hname & _).
  vm_compute in Hplane. injection Hplane as <-. discriminate Hname.
Qed.

(** C10, amended.  In object mode, when no object of the scene is called
    [tile_name], a plane construction that returns has added one plane which
    is called [tile_name], has the custom property "physics" set to False, and
    carries one material, created by the construction under the requested name
    "re_ground_mat" (whatever [tile_name] is) and using nodes; this holds
    whichever optional keys the tile supplies. *)
Theorem plane_finished_as_claimed_when_name_is_free cfg h h' tile_name :
  Config.get_string cfg "tile_name" (Some "RE_ground_plane") = Ok tile_name →
  mode h = OBJECT →
  tile_name ∉ ob_name <$> objects h →
  _construct_ground_plane cfg h = (Ok tt, h') →
  plane_finished_as_claimed tile_name h h'.
Proof.
  intros Hname Hmode Hobj H.
  destruct (construct_ground_plane_reads _ _ _ H)
    as (scale & cuts & levels & strength & ? & ao & Hscale & Hcuts & Hlevels & Hstrength & _ & Hao).
  destruct (construct_ground_plane_objects _ _ _ _ _ _ _ _
              Hscale Hcuts Hlevels Hstrength Hname Hmode Hobj H)
    as (tex & _ & Hobjs & _).
  destruct (construct_ground_plane_graph _ _ _ _ Hao H) as (i & g & _ & _ & _ & Hm).
  eexists _, (length (materials h)), _. rewrite Hobjs, Hm, !lookup_last.
  repeat split; first [done | lia | apply lookup_singleton_eq].
Qed.

Lemma plane_finished_witness :
  let h := (_load_shader (Config.Config default_tile) empty_scene).2 in
  let h' := (_construct_ground_plane (Config.Config default_tile) h).2 in
  plane_finished_as_claimed "RE_ground_plane" h h'.
Proof.
  intros h h'.
  apply (plane_finished_as_claimed_when_name_is_free (Config.Config default_tile) h h'
           "RE_ground_plane");
    try (vm_compute; reflexivity).
  vm_compute. apply not_elem_of_nil.
Defined.

(** C5, as stated, for all tiles: refuted by the empty tile and a tile whose
    only key is "comment".  The two agree on the seven keys, yet [run] skips
    the first and raises on the second, which lacks "shader_path". *)
Lemma unread_key_changes_the_result :
  (∀ k, k ∈ tile_keys →
        (∅ : gmap string value) !! k = ({[ "comment" := VStr "rocks" ]} : gmap string value) !! k)
  ∧ run (config_of_tiles [VDict ∅]) empty_scene
    ≠ run (config_of_tiles [comment_tile]) empty_scene.
Proof.
  split.
  - intros k Hk. rewrite lookup_empty. symmetry. apply lookup_singleton_ne.
    intros <-. revert Hk. apply (bool_decide_eq_false_1 _). by vm_compute.
  - intros E. vm_compute in E. discriminate E.
Qed.

(** C5, amended.  Two configurations whose "tiles" lists differ in one tile,
    both versions of which are non-empty mappings that agree on the seven keys
    shader_path, plane_scale, subdivision_cuts, subdivision_render_levels,
    displacement_strength, tile_name and AO, make [run] return the same result
    and the same scene, whatever other keys the tiles and the configurations
    themselves hold: of a non-empty tile only the seven keys are read, and of
    the configuration only "tiles". *)
Theorem only_tiles_and_tile_keys_are_read c1 c2 pre post d1 d2 h :
  c1 !! "tiles" = Some (VList (pre ++ VDict d1 :: post)) →
  c2 !! "tiles" = Some (VList (pre ++ VDict d2 :: post)) →
  d1 ≠ ∅ → d2 ≠ ∅ →
  (∀ k, k ∈ tile_keys → d1 !! k = d2 !! k) →
  run (Config.Config (VDict c1)) h = run (Config.Config (VDict c2)) h.
Proof.
  intros Hc1 Hc2 Hd1 Hd2 Hk.
  rewrite (run_tiles _ _ _ Hc1), (run_tiles _ _ _ Hc2).
  apply for_each_swap. intros s1.
  rewrite !truthy_dict by done. by apply tile_reads_agree.
Qed.

Lemma only_tile_keys_witness :
  run (Config.Config (VDict (<[ "seed" := VInt 7 ]> {[ "tiles" := VList [default_tile] ]})))
      empty_scene
  = run (config_of_tiles
           [VDict (<[ "comment" := VStr "rocks" ]>
                     {[ "shader_path" := VStr "/assets/rocks.blend" ]})])
        empty_scene.
Proof.
  apply (only_tiles_and_tile_keys_are_read _ _ [] []
           {[ "shader_path" := VStr "/assets/rocks.blend" ]}
           (<[ "comment" := VStr "rocks" ]> {[ "shader_path" := VStr "/assets/rocks.blend" ]})).
  - by vm_compute.
  - by vm_compute.
  - apply (bool_decide_eq_false_1 _). by vm_compute.
  - apply (bool_decide_eq_false_1 _). by vm_compute.
  - intros k Hk. symmetry. apply lookup_insert_ne.
    intros <-. revert Hk. apply (bool_decide_eq_false_1 _). by vm_compute.
Defined.

(** C8. When the configuration has no "tiles" key, [run] returns and leaves
    the scene, the journal of operator calls included, as it was.  A falsy
    element of the tiles list, such as an empty mapping, is skipped: alone it
    leaves the scene as it was, and among other tiles [run] behaves as if it
    were not in the list. *)
Theorem absent_tiles_and_falsy_tiles_are_skipped c pre tile post h :
  c !! "tiles" = None →
  truthy tile = false →
  run (Config.Config (VDict c)) h = (Ok tt, h)
  ∧ run (config_of_tiles [tile]) h = (Ok tt, h)
  ∧ run (config_of_tiles (pre ++ tile :: post)) h = run (config_of_tiles (pre ++ post)) h.
Proof.
  intros Hc Ht. split; [|split].
  - unfold run, Config.get_list. by rewrite get_with_lookup, Hc.
  - rewrite run_config_of_tiles. cbn [for_each]. by rewrite Ht.
  - rewrite !run_config_of_tiles, !for_each_filter.
    rewrite !List.filter_app. cbn [List.filter]. by rewrite Ht.
Qed.

Lemma skipped_tiles_witness :
  run (Config.Config (VDict ∅)) empty_scene = (Ok tt, empty_scene)
  ∧ run (config_of_tiles [VDict ∅]) empty_scene = (Ok tt, empty_scene)
  ∧ run (config_of_tiles ([default_tile] ++ VDict ∅ :: [default_tile])) empty_scene
    = run (config_of_tiles ([default_tile] ++ [default_tile])) empty_scene.
Proof.
  apply (absent_tiles_and_falsy_tiles_are_skipped ∅ [default_tile] (VDict ∅)
           [default_tile] empty_scene).
  - apply lookup_empty.
  - by vm_compute.
Defined.



(** C7. "shader_path" is the only key a tile must have.  A non-empty tile
    without it makes the shader import raise before any operator call and
    before any change to the scene, so [run] raises on reaching the tile and
    the scene is the one left by the tiles before it.  None of the six other
    keys is required: the plane construction never raises for a key not found,
    and the lookup of each of the six keys returns its default when the key is
    absent. *)
Theorem shader_path_is_the_only_required_key d pre post h h1 :
  d !! "shader_path" = None →
  d ≠ ∅ →
  run (config_of_tiles pre) h = (Ok tt, h1) →
  _load_shader (Config.Config (VDict d)) h1 = (Raise (NotFoundError "shader_path"), h1)
  ∧ run (config_of_tiles (pre ++ VDict d :: post)) h
    = (Raise (NotFoundError "shader_path"), h1)
  ∧ (∀ cfg h2 name, (_construct_ground_plane cfg h2).1 ≠ Raise (NotFoundError name))
  ∧ (∀ d' : gmap string value,
       let cfg := Config.Config (VDict d') in
       (d' !! "plane_scale" = None →
        Config.get_vector3d cfg "plane_scale" (Some [1%Q; 1%Q; 1%Q]) = Ok [1%Q; 1%Q; 1%Q])
       ∧ (d' !! "subdivision_cuts" = None →
          Config.get_int cfg "subdivision_cuts" (Some 50%Z) = Ok 50%Z)
       ∧ (d' !! "subdivision_render_levels" = None →
          Config.get_int cfg "subdivision_render_levels" (Some 3%Z) = Ok 3%Z)
       ∧ (d' !! "displacement_strength" = None →
          Config.get_float cfg "displacement_strength" (Some 1%Q) = Ok 1%Q)
       ∧ (d' !! "tile_name" = None →
          Config.get_string cfg "tile_name" (Some "RE_ground_plane") = Ok "RE_ground_plane")
       ∧ (d' !! "AO" = None →
          Config.get_list cfg "AO" (Some [VInt 1; VInt 1; VInt 1; VInt 1])
          = Ok [VInt 1; VInt 1; VInt 1; VInt 1])).
Proof.
  intros Hd Hne Hpre.
  assert (_load_shader (Config.Config (VDict d)) h1
          = (Raise (NotFoundError "shader_path"), h1)) as Hl.
  { unfold _load_shader, Config.get_string. rewrite get_with_lookup, Hd. reflexivity. }
  split; [exact Hl|]. split; [|split].
  - rewrite run_config_of_tiles in *. rewrite for_each_app.
    rewrite (bind_ok _ _ _ _ _ Hpre). cbn [for_each]. rewrite truthy_dict by done.
    rewrite (bind_raise _ _ _ _ _ (bind_raise _ _ _ _ _ Hl)). reflexivity.
  - intros cfg h2 name. apply construct_ground_plane_finds.
  - intros d' cfg. subst cfg.
    unfold Config.get_string, Config.get_int, Config.get_float, Config.get_list,
           Config.get_vector3d.
    rewrite !get_with_lookup. repeat split; by intros ->.
Qed.

Lemma shader_path_required_witness :
  _load_shader (Config.Config comment_tile) one_tile_scene
    = (Raise (NotFoundError "shader_path"), one_tile_scene)
  ∧ run (config_of_tiles ([default_tile] ++ comment_tile :: [default_tile])) empty_scene
    = (Raise (NotFoundError "shader_path"), one_tile_scene).
Proof.
  destruct (shader_path_is_the_only_required_key {[ "comment" := VStr "rocks" ]}
              [default_tile] [default_tile] empty_scene one_tile_scene)
    as (Hl & Hr & _).
  - by vm_compute.
  - apply (bool_decide_eq_false_1 _). by vm_compute.
  - vm_compute. reflexivity.
  - split; [exact Hl | exact Hr].
Defined.


